(** * Announcement API: student and subscription route handlers

    A shallow embedding of [api/routes/student.py] and
    [api/routes/subscription.py].  A handler is a function from the database
    session to its outcome (a returned object or a raised [HTTPException])
    paired with the session it leaves behind.  Python [int] is [Z], [str] is
    [string], [Optional[T]] is [option T]; the tables of the session are lists
    of rows, so that duplicated rows are representable. *)

From Stdlib Require Import ZArith List String Bool Lia DecimalString.
Import ListNotations.
Open Scope string_scope.
Open Scope Z_scope.

(** ** fastapi.status *)

Module status.
Definition HTTP_200_OK : Z := 200.
Definition HTTP_201_CREATED : Z := 201.
Definition HTTP_204_NO_CONTENT : Z := 204.
Definition HTTP_400_BAD_REQUEST : Z := 400.
Definition HTTP_403_FORBIDDEN : Z := 403.
Definition HTTP_404_NOT_FOUND : Z := 404.
End status.

(** Python's [str] on an integer, as the f-strings of the handlers use it. *)
Definition str (n : Z) : string := NilZero.string_of_int (Z.to_int n).

(** ** Rows, request bodies and the decoded token *)

(** [api.db.models.Student]: the key, the two unique fields and a profile
    field. *)
Record StudentModel := mkStudent {
  id : Z;
  email : string;
  matricule : string;
  name : string
}.

Record ChannelModel := mkChannel {
  channel_pk : Z;
  channel_name : string
}.

(** A subscription row relates a channel and a student. *)
Record SubscriptionModel := mkSubscription {
  channel_id : Z;
  student_id : Z
}.

(** [student_schema.StudentCreate] and [student_schema.StudentUpdate]. *)
Record StudentCreate := mkStudentCreate {
  create_email : string;
  create_matricule : string;
  create_name : string
}.

Record StudentUpdate := mkStudentUpdate {
  update_email : string;
  update_matricule : string;
  update_name : string
}.

(** [sub_schema.SubscriptionCreate]. *)
Record SubscriptionCreate := mkSubscriptionCreate {
  sub_channel_id : Z;
  sub_student_id : Z
}.

(** [StudentJWT], the caller identity decoded from the bearer token.  The
    student handlers read its attribute [id], the subscription handlers its
    attribute [student_id]; the record carries one field per attribute. *)
Record StudentJWT := mkStudentJWT {
  jwt_id : Z;
  jwt_student_id : Z
}.

(** The database behind a [Session]. *)
Record Session := mkSession {
  students : list StudentModel;
  channels : list ChannelModel;
  subscriptions : list SubscriptionModel
}.

(** ** Exceptions, responses and handler outcomes *)

Record HTTPException := mkHTTPException {
  status_code : Z;
  detail : string
}.

(** [fastapi.responses.JSONResponse]; built from [content] alone it carries
    the class default status, 200. *)
Record JSONResponse := mkJSONResponse {
  response_status : Z;
  content_detail : string
}.

Definition JSONResponse_of_content (d : string) : JSONResponse :=
  mkJSONResponse status.HTTP_200_OK d.

(** The objects a handler returns. *)
Inductive PyObj :=
| PyNone
| PyStudent (s : StudentModel)
| PyStudents (l : list StudentModel)
| PySubscription (s : SubscriptionModel)
| PySubscriptions (l : list SubscriptionModel)
| PyResponse (r : JSONResponse).

Inductive Outcome :=
| Return (v : PyObj)
| Raise (e : HTTPException).

Definition Handler := Session -> Outcome * Session.

(** The status line the framework sends for a route declared with
    [status_code]: a raised exception carries its own status, a returned
    response object is sent as it is, and any other returned value is
    serialised under the declared status. *)
Definition http_status (declared : Z) (o : Outcome) : Z :=
  match o with
  | Raise e => status_code e
  | Return (PyResponse r) => response_status r
  | Return _ => declared
  end.

(** Truth value of an [Optional[row]] in an [if]. *)
Definition is_some {A : Type} (o : option A) : bool :=
  match o with Some _ => true | None => false end.

(** [elif x:] on an [Optional[int]] passes when [x] is neither [None] nor 0;
    [truthy_int] yields the value in that case. *)
Definition truthy_int (o : option Z) : option Z :=
  match o with
  | Some n => if n =? 0 then None else Some n
  | None => None
  end.

Definition of_option_subscription (o : option SubscriptionModel) : PyObj :=
  match o with
  | Some s => PySubscription s
  | None => PyNone
  end.

(** ** Data-access functions *)

Module crud.

(** The data-access modules [api/crud/student.py], [api/crud/channel.py]
    and [api/crud/subscription.py] are not among the sources.  Their
    functions are the ORM queries the spec lists: lookup by id, by unique
    field and by composite filter, insert, update and delete.  A lookup of one
    row yields the first match or [None], as the handlers test it. *)

(** Modelled from the spec: [crud.student.get_students] is missing; the student table
    paginated by skip and limit. *)
Definition get_students (db : Session) (skip limit : Z) : list StudentModel :=
  firstn (Z.to_nat limit) (skipn (Z.to_nat skip) (students db)).

(** Modelled from the spec: [crud.student.get_student] is missing; lookup of a student
    by id. *)
Definition get_student (db : Session) (student_id : Z) : option StudentModel :=
  find (fun s => id s =? student_id) (students db).

(** Modelled from the spec: [crud.student.get_student_by_email] is missing;
    lookup by the unique field email. *)
Definition get_student_by_email (db : Session) (e : string) : option StudentModel :=
  find (fun s => String.eqb (email s) e) (students db).

(** Modelled from the spec: [crud.student.get_student_by_matricule] is
    missing; lookup by the unique field matricule. *)
Definition get_student_by_matricule (db : Session) (m : string) : option StudentModel :=
  find (fun s => String.eqb (matricule s) m) (students db).

(** Modelled from the spec: [crud.student.other_student_with_same_email] is
    missing; a student other than the target whose email is the updated one. *)
Definition other_student_with_same_email
    (db : Session) (student_id : Z) (student : StudentUpdate) : option StudentModel :=
  find (fun s => negb (id s =? student_id) && String.eqb (email s) (update_email student))
       (students db).

(** Modelled from the spec: [crud.student.other_student_with_same_matricule]
    is missing; a student other than the target whose matricule is the updated
    one. *)
Definition other_student_with_same_matricule
    (db : Session) (student_id : Z) (student : StudentUpdate) : option StudentModel :=
  find (fun s => negb (id s =? student_id)
                 && String.eqb (matricule s) (update_matricule student))
       (students db).

(** Modelled from the spec: the key generator of the student table is missing; a
    new key is one above the largest key in the table. *)
Definition next_id (l : list StudentModel) : Z :=
  1 + fold_right (fun s m => Z.max (id s) m) 0 l.

(** Modelled from the spec: [crud.student.create_student] is missing; insert of
    a student row built from the request. *)
Definition create_student (db : Session) (student : StudentCreate)
  : StudentModel * Session :=
  let row := mkStudent (next_id (students db)) (create_email student)
                       (create_matricule student) (create_name student) in
  (row, mkSession (students db ++ [row]) (channels db) (subscriptions db)).

(** Modelled from the spec: the effect of an update on one row; the row of the
    target takes the fields of the request and keeps its id. *)
Definition apply_update (student : StudentUpdate) (student_id : Z) (s : StudentModel)
  : StudentModel :=
  if id s =? student_id
  then mkStudent (id s) (update_email student) (update_matricule student)
                 (update_name student)
  else s.

(** Modelled from the spec: [crud.student.update_student] is missing; update of
    the target row, returning it. *)
Definition update_student (db : Session) (student : StudentUpdate) (student_id : Z)
  : option StudentModel * Session :=
  let db' := mkSession (map (apply_update student student_id) (students db))
                       (channels db) (subscriptions db) in
  (get_student db' student_id, db').

(** Modelled from the spec: [crud.student.delete_student] is missing; the student
    is destroyed on a delete request. *)
Definition delete_student (db : Session) (student_id : Z) : Session :=
  mkSession (filter (fun s => negb (id s =? student_id)) (students db))
            (channels db) (subscriptions db).

(** Modelled from the spec: [crud.channel.get_channel] is missing; lookup of a
    channel by id. *)
Definition get_channel (db : Session) (channel_id : Z) : option ChannelModel :=
  find (fun c => channel_pk c =? channel_id) (channels db).

(** Modelled from the spec: the composite filter on (channel, student). *)
Definition same_pair (c st : Z) (s : SubscriptionModel) : bool :=
  (channel_id s =? c) && (student_id s =? st).

(** Modelled from the spec: [crud.subscription.get_sub_by_channel_and_student]
    is missing; lookup by the composite filter. *)
Definition get_sub_by_channel_and_student (db : Session) (c st : Z)
  : option SubscriptionModel :=
  find (same_pair c st) (subscriptions db).

(** Modelled from the spec: [crud.subscription.get_subscriptions_for_channel]
    is missing; the subscriptions of a channel. *)
Definition get_subscriptions_for_channel (db : Session) (c : Z)
  : list SubscriptionModel :=
  filter (fun s => channel_id s =? c) (subscriptions db).

(** Modelled from the spec: [crud.subscription.get_subscriptions_for_student]
    is missing; the subscriptions of a student. *)
Definition get_subscriptions_for_student (db : Session) (st : Z)
  : list SubscriptionModel :=
  filter (fun s => student_id s =? st) (subscriptions db).

(** Modelled from the spec: [crud.subscription.get_subscriptions] is missing;
    all subscriptions, paginated by skip and limit. *)
Definition get_subscriptions (db : Session) (skip limit : Z) : list SubscriptionModel :=
  firstn (Z.to_nat limit) (skipn (Z.to_nat skip) (subscriptions db)).

(** Modelled from the spec: [crud.subscription.subscribe] is missing; a subscription
    row is created for the requested pair. *)
Definition subscribe (db : Session) (subscription : SubscriptionCreate)
  : SubscriptionModel * Session :=
  let row := mkSubscription (sub_channel_id subscription) (sub_student_id subscription) in
  (row, mkSession (students db) (channels db) (subscriptions db ++ [row])).

(** Modelled from the spec: [crud.subscription.unsubscribe] is missing; the
    subscription of the pair is removed. *)
Definition unsubscribe (db : Session) (c st : Z) : Session :=
  mkSession (students db) (channels db)
            (filter (fun s => negb (same_pair c st s)) (subscriptions db)).

End crud.

(** ** api/routes/student.py *)

Definition get_students (skip limit : Z) : Handler := fun db =>
  let students := crud.get_students db skip limit in
  (Return (PyStudents students), db).

Definition get_single_student (student_id : Z) : Handler := fun db =>
  let db_student := crud.get_student db student_id in
  match db_student with
  | None =>
      (Raise (mkHTTPException status.HTTP_404_NOT_FOUND
                ("Student with id " ++ str student_id ++ " could not be found")%string), db)
  | Some s => (Return (PyStudent s), db)
  end.

Definition create_student (student : StudentCreate) : Handler := fun db =>
  let student_with_email := crud.get_student_by_email db (create_email student) in
  if is_some student_with_email then
    (Raise (mkHTTPException status.HTTP_400_BAD_REQUEST "Email already exists"), db)
  else
  let student_with_matricule :=
    crud.get_student_by_matricule db (create_matricule student) in
  if is_some student_with_matricule then
    (Raise (mkHTTPException status.HTTP_400_BAD_REQUEST "Matricule already exists"), db)
  else
  let '(row, db') := crud.create_student db student in
  (Return (PyStudent row), db').

Definition update_student (student_id : Z) (student : StudentUpdate)
    (current_student : StudentJWT) : Handler := fun db =>
  match crud.get_student db student_id with
  | None =>
      (Raise (mkHTTPException status.HTTP_404_NOT_FOUND
                ("No student with ID " ++ str student_id)%string), db)
  | Some db_student =>
      if negb (id db_student =? jwt_id current_student) then
        (Raise (mkHTTPException status.HTTP_403_FORBIDDEN "Permission denied"), db)
      else if is_some (crud.other_student_with_same_email db student_id student) then
        (Raise (mkHTTPException status.HTTP_400_BAD_REQUEST "Email already exists"), db)
      else if is_some (crud.other_student_with_same_matricule db student_id student) then
        (Raise (mkHTTPException status.HTTP_400_BAD_REQUEST "Matricule already exists"), db)
      else
        let '(row, db') := crud.update_student db student student_id in
        (Return (match row with Some s => PyStudent s | None => PyNone end), db')
  end.

Definition delete_student (student_id : Z) (current_student : StudentJWT)
  : Handler := fun db =>
  match crud.get_student db student_id with
  | None =>
      (Raise (mkHTTPException status.HTTP_404_NOT_FOUND
                ("No student with ID " ++ str student_id)%string), db)
  | Some db_student =>
      if negb (id db_student =? jwt_id current_student) then
        (Raise (mkHTTPException status.HTTP_403_FORBIDDEN "Permission denied"), db)
      else
        let db' := crud.delete_student db student_id in
        (Return (PyResponse (JSONResponse_of_content "Student deleted")), db')
  end.

(** ** api/routes/subscription.py *)

Definition get_subscriptions (channel_id student_id : option Z) (skip limit : Z)
  : Handler := fun db =>
  match channel_id, student_id with
  | Some c, Some st =>
      (Return (of_option_subscription (crud.get_sub_by_channel_and_student db c st)), db)
  | _, _ =>
      match truthy_int channel_id with
      | Some c => (Return (PySubscriptions (crud.get_subscriptions_for_channel db c)), db)
      | None =>
          match truthy_int student_id with
          | Some st =>
              (Return (PySubscriptions (crud.get_subscriptions_for_student db st)), db)
          | None => (Return (PySubscriptions (crud.get_subscriptions db skip limit)), db)
          end
      end
  end.

Definition create_new_subscription (subscription : SubscriptionCreate)
    (current_student : StudentJWT) : Handler := fun db =>
  let db_subscription :=
    crud.get_sub_by_channel_and_student db (sub_channel_id subscription)
                                        (sub_student_id subscription) in
  if negb (sub_student_id subscription =? jwt_student_id current_student) then
    (Raise (mkHTTPException status.HTTP_403_FORBIDDEN "Permission denied"), db)
  else if is_some db_subscription then
    (Raise (mkHTTPException status.HTTP_400_BAD_REQUEST "Already subscribed"), db)
  else
  let channel_exists := crud.get_channel db (sub_channel_id subscription) in
  if negb (is_some channel_exists) then
    (Raise (mkHTTPException status.HTTP_404_NOT_FOUND
              "Channel with specified ID does not exist"), db)
  else
  let student_exists := crud.get_student db (sub_student_id subscription) in
  if negb (is_some student_exists) then
    (Raise (mkHTTPException status.HTTP_404_NOT_FOUND
              "Student with specified ID does not exist"), db)
  else
  let '(row, db') := crud.subscribe db subscription in
  (Return (PySubscription row), db').

Definition unsubscribe (channel_id student_id : Z) (current_student : StudentJWT)
  : Handler := fun db =>
  if negb (student_id =? jwt_student_id current_student) then
    (Raise (mkHTTPException status.HTTP_403_FORBIDDEN "Permission denied"), db)
  else
  let db_subscription := crud.get_sub_by_channel_and_student db channel_id student_id in
  if negb (is_some db_subscription) then
    (Raise (mkHTTPException status.HTTP_404_NOT_FOUND "No such entry found in database"), db)
  else
  let db' := crud.unsubscribe db channel_id student_id in
  (Return (PyResponse (JSONResponse_of_content "Unsubscribed")), db').

(** ** The routes and their declared status codes *)

(** A route runs its handler and answers with the status [http_status]
    gives the outcome under the status the decorator declares. *)
Definition route (declared : Z) (h : Handler) (db : Session) : Z * Session :=
  let '(o, db') := h db in (http_status declared o, db').

Definition GET_students (skip limit : Z) :=
  route status.HTTP_200_OK (get_students skip limit).
Definition GET_student (student_id : Z) :=
  route status.HTTP_200_OK (get_single_student student_id).
Definition POST_students (student : StudentCreate) :=
  route status.HTTP_201_CREATED (create_student student).
Definition PUT_student (student_id : Z) (student : StudentUpdate) (tok : StudentJWT) :=
  route status.HTTP_200_OK (update_student student_id student tok).
Definition DELETE_student (student_id : Z) (tok : StudentJWT) :=
  route status.HTTP_204_NO_CONTENT (delete_student student_id tok).
Definition GET_subscriptions (c st : option Z) (skip limit : Z) :=
  route status.HTTP_200_OK (get_subscriptions c st skip limit).
Definition POST_subscriptions (subscription : SubscriptionCreate) (tok : StudentJWT) :=
  route status.HTTP_201_CREATED (create_new_subscription subscription tok).
Definition DELETE_subscriptions (c st : Z) (tok : StudentJWT) :=
  route status.HTTP_204_NO_CONTENT (unsubscribe c st tok).

(** The requests the two routers serve, and their dispatch. *)
Inductive Request :=
| ReqGetStudents (skip limit : Z)
| ReqGetSingleStudent (student_id : Z)
| ReqCreateStudent (student : StudentCreate)
| ReqUpdateStudent (student_id : Z) (student : StudentUpdate) (tok : StudentJWT)
| ReqDeleteStudent (student_id : Z) (tok : StudentJWT)
| ReqGetSubscriptions (c st : option Z) (skip limit : Z)
| ReqCreateNewSubscription (subscription : SubscriptionCreate) (tok : StudentJWT)
| ReqUnsubscribe (c st : Z) (tok : StudentJWT).

Definition handle (r : Request) : Handler :=
  match r with
  | ReqGetStudents skip limit => get_students skip limit
  | ReqGetSingleStudent student_id => get_single_student student_id
  | ReqCreateStudent student => create_student student
  | ReqUpdateStudent student_id student tok => update_student student_id student tok
  | ReqDeleteStudent student_id tok => delete_student student_id tok
  | ReqGetSubscriptions c st skip limit => get_subscriptions c st skip limit
  | ReqCreateNewSubscription subscription tok => create_new_subscription subscription tok
  | ReqUnsubscribe c st tok => unsubscribe c st tok
  end.

(** A database state is reachable when it comes from a state without
    subscription rows by a sequence of requests. *)
Inductive reachable : Session -> Prop :=
| reachable_init : forall db, subscriptions db = [] -> reachable db
| reachable_step : forall db r, reachable db -> reachable (snd (handle r db)).

(** The rows of the subscription table for one (channel, student) pair. *)
Definition rows_of_pair (db : Session) (c st : Z) : list SubscriptionModel :=
  filter (fun s => (channel_id s =? c) && (student_id s =? st)) (subscriptions db).

Definition at_most_one_per_pair (db : Session) : Prop :=
  forall c st, (List.length (rows_of_pair db c st) <= 1)%nat.

(** Sample data for the closed statements below. *)
Definition alice : StudentModel := mkStudent 1 "alice@uni.cm" "FE21A001" "Alice".
Definition bob : StudentModel := mkStudent 2 "bob@uni.cm" "FE21A002" "Bob".
Definition news : ChannelModel := mkChannel 1 "news".
Definition alice_token : StudentJWT := mkStudentJWT 1 1.
Definition bob_token : StudentJWT := mkStudentJWT 2 2.
Definition campus : Session := mkSession [alice; bob] [news] [].
Definition campus_subscribed : Session :=
  mkSession [alice; bob] [news] [mkSubscription 1 1].

(** The student table holds each id, each email and each matricule once. *)
Definition students_unique (db : Session) : Prop :=
  NoDup (map id (students db))
  /\ NoDup (map email (students db))
  /\ NoDup (map matricule (students db)).

(** The statuses the handlers raise. *)
Definition error_status (code : Z) : Prop :=
  code = status.HTTP_400_BAD_REQUEST
  \/ code = status.HTTP_403_FORBIDDEN
  \/ code = status.HTTP_404_NOT_FOUND.

(** A listing request carries a filter the handler acts on when both ids are
    given, or when one of them passes its truth test. *)
Definition filtered (channel_id student_id : option Z) : Prop :=
  (channel_id <> None /\ student_id <> None)
  \/ truthy_int channel_id <> None
  \/ truthy_int student_id <> None.

(** * Properties *)

(** ** Lookups in a table *)

Section Lookup.
Context {A : Type} (f : A -> bool).

Lemma is_some_find_In (l : list A) (x : A) :
  In x l -> f x = true -> is_some (find f l) = true.
Proof.
  induction l as [|y l IH]; simpl; [tauto|].
  intros [->|Hin] Hx.
  - now rewrite Hx.
  - destruct (f y); [reflexivity | now apply IH].
Qed.

Lemma find_absent (l : list A) :
  (forall x, In x l -> f x = false) -> find f l = None.
Proof.
  induction l as [|y l IH]; simpl; intros H; [reflexivity|].
  rewrite (H y (or_introl eq_refl)). apply IH. intros x Hx. apply H. now right.
Qed.

Lemma filter_absent (l : list A) : find f l = None -> filter f l = [].
Proof.
  induction l as [|y l IH]; simpl; [reflexivity|].
  destruct (f y); [discriminate | exact IH].
Qed.

Lemma filter_filter_length (g : A -> bool) (l : list A) :
  (List.length (filter f (filter g l)) <= List.length (filter f l))%nat.
Proof.
  induction l as [|y l IH]; simpl; [lia|].
  destruct (g y), (f y) eqn:E; simpl; rewrite ?E; simpl; lia.
Qed.
End Lookup.

Lemma get_student_id (db : Session) (student_id : Z) (s : StudentModel) :
  crud.get_student db student_id = Some s -> id s = student_id.
Proof.
  unfold crud.get_student. intros H. apply find_some in H as [_ H].
  now apply Z.eqb_eq.
Qed.

Lemma get_student_present (db : Session) (s : StudentModel) :
  In s (students db) -> is_some (crud.get_student db (id s)) = true.
Proof.
  intros H. unfold crud.get_student.
  apply is_some_find_In with (x := s); [exact H | apply Z.eqb_refl].
Qed.

Lemma get_student_missing (db : Session) (student_id : Z) :
  (forall s, In s (students db) -> id s <> student_id) ->
  crud.get_student db student_id = None.
Proof.
  intros H. apply find_absent. intros s Hs. apply Z.eqb_neq. now apply H.
Qed.

Lemma get_sub_present (db : Session) (s : SubscriptionModel) :
  In s (subscriptions db) ->
  is_some (crud.get_sub_by_channel_and_student db (channel_id s) (student_id s)) = true.
Proof.
  intros H. apply is_some_find_In with (x := s); [exact H|].
  unfold crud.same_pair. now rewrite !Z.eqb_refl.
Qed.

Lemma get_sub_missing (db : Session) (c st : Z) :
  (forall s, In s (subscriptions db) -> ~ (channel_id s = c /\ student_id s = st)) ->
  crud.get_sub_by_channel_and_student db c st = None.
Proof.
  intros H. apply find_absent. intros s Hs. unfold crud.same_pair.
  apply andb_false_iff.
  destruct (Z.eqb_spec (channel_id s) c) as [Hc|]; [|now left].
  destruct (Z.eqb_spec (student_id s) st) as [Hs'|]; [|now right].
  exfalso. now apply (H s Hs).
Qed.

(** ** Student routes *)

(** C2: a create-student request whose email or whose matricule is that of a
    stored student is answered with status 400, and the database is left as
    it was, so no student is created. *)
Theorem create_student_duplicate_rejected :
  forall (db : Session) (student : StudentCreate) (s : StudentModel),
    In s (students db) ->
    email s = create_email student \/ matricule s = create_matricule student ->
    POST_students student db = (status.HTTP_400_BAD_REQUEST, db).
Proof.
  intros db student s Hin Hdup.
  unfold POST_students, route, create_student.
  destruct (is_some (crud.get_student_by_email db (create_email student))) eqn:He;
    [reflexivity|].
  destruct Hdup as [Hmail|Hmat].
  - assert (Hfound : is_some (crud.get_student_by_email db (create_email student)) = true).
    { apply is_some_find_In with (x := s); [exact Hin|]. now apply String.eqb_eq. }
    congruence.
  - assert (Hfound :
      is_some (crud.get_student_by_matricule db (create_matricule student)) = true).
    { apply is_some_find_In with (x := s); [exact Hin|]. now apply String.eqb_eq. }
    now rewrite Hfound.
Qed.

Lemma create_student_duplicate_rejected_witness :
  In bob (students campus)
  /\ POST_students (mkStudentCreate "robert@uni.cm" "FE21A002" "Robert") campus
     = (status.HTTP_400_BAD_REQUEST, campus).
Proof.
  split.
  - simpl. right. left. reflexivity.
  - apply (create_student_duplicate_rejected campus _ bob).
    + simpl. right. left. reflexivity.
    + right. reflexivity.
Defined.

(** C3: when the target student is stored and the caller's id is not the
    target id, update and delete are both answered with status 403 and the
    database is left as it was. *)
Theorem student_write_by_other_forbidden :
  forall (db : Session) (student_id : Z) (student : StudentUpdate)
         (current_student : StudentJWT) (s : StudentModel),
    In s (students db) ->
    id s = student_id ->
    jwt_id current_student <> student_id ->
    PUT_student student_id student current_student db = (status.HTTP_403_FORBIDDEN, db)
    /\ DELETE_student student_id current_student db = (status.HTTP_403_FORBIDDEN, db).
Proof.
  intros db student_id student current_student s Hin Hid Hneq.
  pose proof (get_student_present db s Hin) as Hfound. rewrite Hid in Hfound.
  unfold PUT_student, DELETE_student, route, update_student, delete_student.
  destruct (crud.get_student db student_id) as [db_student|] eqn:Hget; [|discriminate].
  apply get_student_id in Hget.
  assert (Hcmp : negb (id db_student =? jwt_id current_student) = true).
  { apply negb_true_iff, Z.eqb_neq. congruence. }
  rewrite Hcmp. split; reflexivity.
Qed.

Lemma student_write_by_other_forbidden_witness :
  PUT_student 1 (mkStudentUpdate "eve@uni.cm" "FE21A666" "Eve") bob_token campus
    = (status.HTTP_403_FORBIDDEN, campus)
  /\ DELETE_student 1 bob_token campus = (status.HTTP_403_FORBIDDEN, campus).
Proof.
  apply (student_write_by_other_forbidden campus 1 _ bob_token alice).
  - simpl. left. reflexivity.
  - reflexivity.
  - simpl. lia.
Defined.

(** C4: when no stored student has the target id, update and delete are both
    answered with status 404, whoever the caller is. *)
Theorem student_write_missing_not_found :
  forall (db : Session) (student_id : Z) (student : StudentUpdate)
         (current_student : StudentJWT),
    (forall s, In s (students db) -> id s <> student_id) ->
    PUT_student student_id student current_student db = (status.HTTP_404_NOT_FOUND, db)
    /\ DELETE_student student_id current_student db = (status.HTTP_404_NOT_FOUND, db).
Proof.
  intros db student_id student current_student Habsent.
  unfold PUT_student, DELETE_student, route, update_student, delete_student.
  rewrite (get_student_missing db student_id Habsent). split; reflexivity.
Qed.

Lemma student_write_missing_not_found_witness :
  PUT_student 7 (mkStudentUpdate "eve@uni.cm" "FE21A666" "Eve") bob_token campus
    = (status.HTTP_404_NOT_FOUND, campus)
  /\ DELETE_student 7 bob_token campus = (status.HTTP_404_NOT_FOUND, campus).
Proof.
  apply (student_write_missing_not_found campus 7).
  simpl. intros s [<-|[<-|[]]]; simpl; lia.
Defined.

(** ** Subscription routes *)

(** C5: when a row for the (channel, student) pair is stored, a create request
    by that student for the same pair is answered with status 400 and the
    database, hence the set of subscriptions, is left as it was. *)
Theorem subscribe_twice_rejected :
  forall (db : Session) (subscription : SubscriptionCreate)
         (current_student : StudentJWT) (s : SubscriptionModel),
    In s (subscriptions db) ->
    channel_id s = sub_channel_id subscription ->
    student_id s = sub_student_id subscription ->
    jwt_student_id current_student = sub_student_id subscription ->
    POST_subscriptions subscription current_student db
      = (status.HTTP_400_BAD_REQUEST, db).
Proof.
  intros db subscription current_student s Hin Hc Hst Hcaller.
  pose proof (get_sub_present db s Hin) as Hfound. rewrite Hc, Hst in Hfound.
  unfold POST_subscriptions, route, create_new_subscription.
  rewrite Hcaller, Z.eqb_refl, Hfound. reflexivity.
Qed.

Lemma subscribe_twice_rejected_witness :
  POST_subscriptions (mkSubscriptionCreate 1 1) alice_token campus_subscribed
    = (status.HTTP_400_BAD_REQUEST, campus_subscribed).
Proof.
  apply (subscribe_twice_rejected campus_subscribed _ alice_token (mkSubscription 1 1));
    try reflexivity.
  simpl. left. reflexivity.
Defined.

(** C6: an unsubscribe request by the caller whose id is the given student id,
    for a pair that has no stored row, is answered with status 404 and the
    database is left as it was. *)
Theorem unsubscribe_missing_not_found :
  forall (db : Session) (c st : Z) (current_student : StudentJWT),
    jwt_student_id current_student = st ->
    (forall s, In s (subscriptions db) -> ~ (channel_id s = c /\ student_id s = st)) ->
    DELETE_subscriptions c st current_student db = (status.HTTP_404_NOT_FOUND, db).
Proof.
  intros db c st current_student Hcaller Habsent.
  unfold DELETE_subscriptions, route, unsubscribe.
  rewrite Hcaller, Z.eqb_refl, (get_sub_missing db c st Habsent). reflexivity.
Qed.

Lemma unsubscribe_missing_not_found_witness :
  DELETE_subscriptions 1 2 bob_token campus_subscribed
    = (status.HTTP_404_NOT_FOUND, campus_subscribed).
Proof.
  apply (unsubscribe_missing_not_found campus_subscribed 1 2 bob_token).
  - reflexivity.
  - simpl. intros s [<-|[]] [_ H]. simpl in H. lia.
Defined.

(** C7: a create request by the matching caller for a pair without a stored
    row is answered with status 404 when no channel has the requested channel
    id or no student has the requested student id; the database is left as it
    was, so no subscription is created. *)
Theorem subscribe_dangling_rejected :
  forall (db : Session) (subscription : SubscriptionCreate)
         (current_student : StudentJWT),
    jwt_student_id current_student = sub_student_id subscription ->
    (forall s, In s (subscriptions db) ->
       ~ (channel_id s = sub_channel_id subscription
          /\ student_id s = sub_student_id subscription)) ->
    (forall ch, In ch (channels db) -> channel_pk ch <> sub_channel_id subscription)
    \/ (forall s, In s (students db) -> id s <> sub_student_id subscription) ->
    POST_subscriptions subscription current_student db
      = (status.HTTP_404_NOT_FOUND, db).
Proof.
  intros db subscription current_student Hcaller Hfresh Hdangling.
  unfold POST_subscriptions, route, create_new_subscription.
  rewrite Hcaller, Z.eqb_refl, (get_sub_missing db _ _ Hfresh). simpl.
  destruct (crud.get_channel db (sub_channel_id subscription)) as [ch|] eqn:Hch; simpl;
    [|reflexivity].
  destruct Hdangling as [Hno_channel|Hno_student].
  - unfold crud.get_channel in Hch. apply find_some in Hch as [Hin Hpk].
    apply Z.eqb_eq in Hpk. now destruct (Hno_channel ch Hin).
  - rewrite (get_student_missing db _ Hno_student). reflexivity.
Qed.

Lemma subscribe_dangling_rejected_witness :
  POST_subscriptions (mkSubscriptionCreate 9 2) bob_token campus
    = (status.HTTP_404_NOT_FOUND, campus).
Proof.
  apply (subscribe_dangling_rejected campus (mkSubscriptionCreate 9 2) bob_token).
  - reflexivity.
  - simpl. intros s [].
  - left. simpl. intros ch [<-|[]]. simpl. lia.
Defined.

(** C10: in create-subscription the permission check comes before every other
    check: a request whose student id is not the caller's is answered with
    status 403, whatever rows, channels and students are stored. *)
Theorem subscribe_permission_first :
  forall (db : Session) (subscription : SubscriptionCreate)
         (current_student : StudentJWT),
    sub_student_id subscription <> jwt_student_id current_student ->
    POST_subscriptions subscription current_student db
      = (status.HTTP_403_FORBIDDEN, db).
Proof.
  intros db subscription current_student Hneq.
  unfold POST_subscriptions, route, create_new_subscription.
  apply Z.eqb_neq in Hneq. rewrite Hneq. reflexivity.
Qed.

Lemma subscribe_permission_first_witness :
  POST_subscriptions (mkSubscriptionCreate 1 1) bob_token campus_subscribed
    = (status.HTTP_403_FORBIDDEN, campus_subscribed)
  /\ POST_subscriptions (mkSubscriptionCreate 9 7) bob_token campus
     = (status.HTTP_403_FORBIDDEN, campus).
Proof.
  split.
  - apply (subscribe_permission_first campus_subscribed (mkSubscriptionCreate 1 1) bob_token).
    simpl. lia.
  - apply (subscribe_permission_first campus (mkSubscriptionCreate 9 7) bob_token).
    simpl. lia.
Defined.

(** ** The subscription table *)

Lemma rows_of_pair_subscriptions (db db' : Session) (c st : Z) :
  subscriptions db' = subscriptions db -> rows_of_pair db' c st = rows_of_pair db c st.
Proof. unfold rows_of_pair. now intros ->. Qed.

Lemma at_most_one_same_table (db db' : Session) :
  subscriptions db' = subscriptions db ->
  at_most_one_per_pair db -> at_most_one_per_pair db'.
Proof.
  intros Heq H c st. rewrite (rows_of_pair_subscriptions db db' c st Heq). apply H.
Qed.

(** Inserting a row for a pair that the lookup does not find keeps the pairs
    apart. *)
Lemma subscribe_preserves (db : Session) (subscription : SubscriptionCreate) :
  crud.get_sub_by_channel_and_student db (sub_channel_id subscription)
                                      (sub_student_id subscription) = None ->
  at_most_one_per_pair db ->
  at_most_one_per_pair (snd (crud.subscribe db subscription)).
Proof.
  intros Hnone Hinv c st. unfold rows_of_pair. simpl.
  rewrite filter_app, length_app. simpl.
  destruct (Z.eqb_spec (sub_channel_id subscription) c) as [Hc|Hc]; simpl.
  - destruct (Z.eqb_spec (sub_student_id subscription) st) as [Hst|Hst]; simpl.
    + subst c st. apply filter_absent in Hnone. unfold crud.same_pair in Hnone.
      rewrite Hnone. simpl. lia.
    + specialize (Hinv c st). unfold rows_of_pair in Hinv. lia.
  - specialize (Hinv c st). unfold rows_of_pair in Hinv. lia.
Qed.

Lemma unsubscribe_preserves (db : Session) (c st : Z) :
  at_most_one_per_pair db -> at_most_one_per_pair (crud.unsubscribe db c st).
Proof.
  intros Hinv c' st'. unfold rows_of_pair. simpl.
  eapply Nat.le_trans; [apply filter_filter_length | apply Hinv].
Qed.

(** Every request keeps the table at one row per pair at most. *)
Lemma handle_preserves (r : Request) (db : Session) :
  at_most_one_per_pair db -> at_most_one_per_pair (snd (handle r db)).
Proof.
  intros Hinv.
  destruct r as [skip limit | sid | student | sid student tok | sid tok
                | c st skip limit | subscription tok | c st tok]; simpl.
  - exact Hinv.
  - unfold get_single_student. now destruct (crud.get_student db sid).
  - unfold create_student.
    destruct (is_some (crud.get_student_by_email db _)); [exact Hinv|].
    destruct (is_some (crud.get_student_by_matricule db _)); [exact Hinv|].
    simpl. now apply (at_most_one_same_table db).
  - unfold update_student.
    destruct (crud.get_student db sid) as [db_student|]; [|exact Hinv].
    destruct (negb (id db_student =? jwt_id tok)); [exact Hinv|].
    destruct (is_some (crud.other_student_with_same_email db sid student));
      [exact Hinv|].
    destruct (is_some (crud.other_student_with_same_matricule db sid student));
      [exact Hinv|].
    simpl. now apply (at_most_one_same_table db).
  - unfold delete_student.
    destruct (crud.get_student db sid) as [db_student|]; [|exact Hinv].
    destruct (negb (id db_student =? jwt_id tok)); [exact Hinv|].
    simpl. now apply (at_most_one_same_table db).
  - unfold get_subscriptions.
    destruct c as [c|], st as [st|]; simpl; try exact Hinv;
      repeat match goal with
             | |- context [if ?b then _ else _] => destruct b; simpl
             end; exact Hinv.
  - unfold create_new_subscription.
    destruct (negb (sub_student_id subscription =? jwt_student_id tok)); [exact Hinv|].
    destruct (crud.get_sub_by_channel_and_student db _ _) eqn:Hsub; simpl; [exact Hinv|].
    destruct (crud.get_channel db _); simpl; [|exact Hinv].
    destruct (crud.get_student db _); simpl; [|exact Hinv].
    now apply (subscribe_preserves db subscription).
  - unfold unsubscribe.
    destruct (negb (st =? jwt_student_id tok)); [exact Hinv|].
    destruct (crud.get_sub_by_channel_and_student db c st); simpl; [|exact Hinv].
    now apply unsubscribe_preserves.
Qed.

(** C1: in every reachable database state each (channel, student) pair has at
    most one subscription row; the requests are those of [handle], and the
    step of create subscription relies on its rejection of a stored pair. *)
Theorem subscription_pair_unique :
  forall db : Session, reachable db -> at_most_one_per_pair db.
Proof.
  intros db Hreach. induction Hreach as [db Hempty | db r _ IH].
  - intros c st. unfold rows_of_pair. rewrite Hempty. simpl. lia.
  - now apply handle_preserves.
Qed.

Lemma subscription_pair_unique_witness :
  reachable campus_subscribed /\ at_most_one_per_pair campus_subscribed.
Proof.
  assert (Hreach : reachable campus_subscribed).
  { change campus_subscribed
      with (snd (handle (ReqCreateNewSubscription (mkSubscriptionCreate 1 1) alice_token)
                        campus)).
    apply reachable_step, reachable_init. reflexivity. }
  split; [exact Hreach | exact (subscription_pair_unique campus_subscribed Hreach)].
Defined.

(** ** Status of a successful delete *)

(** A delete that passes its checks returns a [JSONResponse] built from its
    content alone, which is sent with that response's own status. *)
Lemma delete_student_success_status (db : Session) (s : StudentModel)
    (current_student : StudentJWT) :
  In s (students db) ->
  jwt_id current_student = id s ->
  DELETE_student (id s) current_student db
    = (status.HTTP_200_OK, crud.delete_student db (id s)).
Proof.
  intros Hin Hcaller. pose proof (get_student_present db s Hin) as Hfound.
  unfold DELETE_student, route, delete_student.
  destruct (crud.get_student db (id s)) as [db_student|] eqn:Hget; [|discriminate].
  apply get_student_id in Hget. rewrite Hget, Hcaller, Z.eqb_refl. reflexivity.
Qed.

Lemma unsubscribe_success_status (db : Session) (s : SubscriptionModel)
    (current_student : StudentJWT) :
  In s (subscriptions db) ->
  jwt_student_id current_student = student_id s ->
  DELETE_subscriptions (channel_id s) (student_id s) current_student db
    = (status.HTTP_200_OK, crud.unsubscribe db (channel_id s) (student_id s)).
Proof.
  intros Hin Hcaller. pose proof (get_sub_present db s Hin) as Hfound.
  unfold DELETE_subscriptions, route, unsubscribe.
  rewrite Hcaller, Z.eqb_refl, Hfound. reflexivity.
Qed.

(** C8: the two delete routes declare status 204, yet a successful delete is
    answered with status 200: student 1 deleting their own stored record, and
    student 1 leaving channel 1 they are subscribed to. *)
Theorem successful_delete_answers_200 :
  DELETE_student 1 alice_token campus
    = (status.HTTP_200_OK, mkSession [bob] [news] [])
  /\ DELETE_subscriptions 1 1 alice_token campus_subscribed
     = (status.HTTP_200_OK, campus)
  /\ status.HTTP_200_OK <> status.HTTP_204_NO_CONTENT.
Proof.
  split; [|split].
  - exact (delete_student_success_status campus alice alice_token
             (or_introl eq_refl) eq_refl).
  - exact (unsubscribe_success_status campus_subscribed (mkSubscription 1 1) alice_token
             (or_introl eq_refl) eq_refl).
  - discriminate.
Qed.

(** ** Listing subscriptions *)

(** With one non-zero filter, and with no filter, the listing is the one the
    filter describes. *)
Lemma get_subscriptions_channel_only (db : Session) (c skip limit : Z) :
  c <> 0 ->
  get_subscriptions (Some c) None skip limit db
    = (Return (PySubscriptions (filter (fun s => channel_id s =? c) (subscriptions db))),
       db).
Proof.
  intros Hc. unfold get_subscriptions. simpl.
  apply Z.eqb_neq in Hc. rewrite Hc. reflexivity.
Qed.

Lemma get_subscriptions_student_only (db : Session) (st skip limit : Z) :
  st <> 0 ->
  get_subscriptions None (Some st) skip limit db
    = (Return (PySubscriptions (filter (fun s => student_id s =? st) (subscriptions db))),
       db).
Proof.
  intros Hst. unfold get_subscriptions. simpl.
  apply Z.eqb_neq in Hst. rewrite Hst. reflexivity.
Qed.

Lemma get_subscriptions_unfiltered (db : Session) (skip limit : Z) :
  get_subscriptions None None skip limit db
    = (Return (PySubscriptions
                 (firstn (Z.to_nat limit) (skipn (Z.to_nat skip) (subscriptions db)))),
       db).
Proof. reflexivity. Qed.

(** C9: with channel id 0 as the only filter the listing is not filtered: the
    test [elif channel_id:] fails on 0, and all rows are returned, here the
    row of channel 1, where no stored row has channel id 0. *)
Theorem get_subscriptions_channel_zero_unfiltered :
  GET_subscriptions (Some 0) None 0 100 campus_subscribed
    = (status.HTTP_200_OK, campus_subscribed)
  /\ fst (get_subscriptions (Some 0) None 0 100 campus_subscribed)
     = Return (PySubscriptions [mkSubscription 1 1])
  /\ filter (fun s => channel_id s =? 0) (subscriptions campus_subscribed) = [].
Proof. repeat split. Qed.

(** * Further properties of the handlers *)

(** ** Reading one student *)

(** X1: reading one student is answered with status 404 exactly when no
    stored student has the requested id. *)
Theorem get_single_student_404_iff :
  forall (db : Session) (student_id : Z),
    fst (GET_student student_id db) = status.HTTP_404_NOT_FOUND
    <-> (forall s, In s (students db) -> id s <> student_id).
Proof.
  intros db student_id. unfold GET_student, route, get_single_student. split.
  - intros H s Hin Hid.
    pose proof (get_student_present db s Hin) as Hfound. rewrite Hid in Hfound.
    destruct (crud.get_student db student_id); simpl in *; discriminate.
  - intros Habsent. now rewrite (get_student_missing db student_id Habsent).
Qed.

(** X2: reading a stored student returns a stored row with the requested id,
    with status 200, and leaves the database as it was. *)
Theorem get_single_student_found :
  forall (db : Session) (s : StudentModel),
    In s (students db) ->
    exists row,
      get_single_student (id s) db = (Return (PyStudent row), db)
      /\ GET_student (id s) db = (status.HTTP_200_OK, db)
      /\ In row (students db)
      /\ id row = id s.
Proof.
  intros db s Hin. pose proof (get_student_present db s Hin) as Hfound.
  unfold GET_student, route, get_single_student.
  destruct (crud.get_student db (id s)) as [row|] eqn:Hget; [|discriminate].
  exists row. repeat split.
  - unfold crud.get_student in Hget. now apply find_some in Hget.
  - now apply get_student_id in Hget.
Qed.

Lemma get_single_student_found_witness :
  exists row,
    get_single_student (id bob) campus = (Return (PyStudent row), campus)
    /\ GET_student (id bob) campus = (status.HTTP_200_OK, campus)
    /\ In row (students campus)
    /\ id row = id bob.
Proof.
  apply (get_single_student_found campus bob). simpl. right. left. reflexivity.
Defined.

(** ** Unsubscribing *)

(** X3: in unsubscribe the permission check comes first: a request for a
    student id that is not the caller's is answered with status 403 whether
    or not a row for the pair is stored. *)
Theorem unsubscribe_permission_first :
  forall (db : Session) (c st : Z) (current_student : StudentJWT),
    st <> jwt_student_id current_student ->
    DELETE_subscriptions c st current_student db = (status.HTTP_403_FORBIDDEN, db).
Proof.
  intros db c st current_student Hneq.
  unfold DELETE_subscriptions, route, unsubscribe.
  apply Z.eqb_neq in Hneq. now rewrite Hneq.
Qed.

Lemma unsubscribe_permission_first_witness :
  DELETE_subscriptions 1 1 bob_token campus_subscribed
    = (status.HTTP_403_FORBIDDEN, campus_subscribed)
  /\ DELETE_subscriptions 5 1 bob_token campus = (status.HTTP_403_FORBIDDEN, campus).
Proof.
  split.
  - apply (unsubscribe_permission_first campus_subscribed 1 1 bob_token). simpl. lia.
  - apply (unsubscribe_permission_first campus 5 1 bob_token). simpl. lia.
Defined.

Lemma unsubscribe_rows (db : Session) (c st : Z) (s : SubscriptionModel) :
  In s (subscriptions (crud.unsubscribe db c st))
  <-> In s (subscriptions db) /\ ~ (channel_id s = c /\ student_id s = st).
Proof.
  simpl. rewrite filter_In. unfold crud.same_pair.
  rewrite negb_true_iff, andb_false_iff, !Z.eqb_neq.
  split; intros [Hin Hpair]; (split; [exact Hin | lia]).
Qed.

(** X4: a successful unsubscribe removes every row of the pair and keeps the
    rows of all other pairs. *)
Theorem unsubscribe_removes_pair :
  forall (db : Session) (s : SubscriptionModel) (current_student : StudentJWT),
    In s (subscriptions db) ->
    jwt_student_id current_student = student_id s ->
    forall row,
      In row (subscriptions
                (snd (unsubscribe (channel_id s) (student_id s) current_student db)))
      <-> In row (subscriptions db)
          /\ ~ (channel_id row = channel_id s /\ student_id row = student_id s).
Proof.
  intros db s current_student Hin Hcaller row.
  pose proof (get_sub_present db s Hin) as Hfound.
  unfold unsubscribe. rewrite Hcaller, Z.eqb_refl, Hfound. simpl fst. simpl snd.
  apply unsubscribe_rows.
Qed.

Lemma unsubscribe_removes_pair_witness :
  In (mkSubscription 1 1)
     (subscriptions (snd (unsubscribe 1 1 alice_token campus_subscribed)))
  <-> In (mkSubscription 1 1) (subscriptions campus_subscribed)
      /\ ~ (channel_id (mkSubscription 1 1) = 1 /\ student_id (mkSubscription 1 1) = 1).
Proof.
  apply (unsubscribe_removes_pair campus_subscribed (mkSubscription 1 1) alice_token).
  - simpl. left. reflexivity.
  - reflexivity.
Defined.

(** X5: unsubscribing twice: after a successful unsubscribe the same request
    is answered with status 404 and changes nothing. *)
Theorem unsubscribe_twice_not_found :
  forall (db : Session) (s : SubscriptionModel) (current_student : StudentJWT),
    In s (subscriptions db) ->
    jwt_student_id current_student = student_id s ->
    let db' := snd (DELETE_subscriptions (channel_id s) (student_id s) current_student db) in
    DELETE_subscriptions (channel_id s) (student_id s) current_student db'
      = (status.HTTP_404_NOT_FOUND, db').
Proof.
  intros db s current_student Hin Hcaller db'.
  assert (Hdb' : db' = crud.unsubscribe db (channel_id s) (student_id s)).
  { unfold db'. now rewrite (unsubscribe_success_status db s current_student Hin Hcaller). }
  rewrite Hdb'. unfold DELETE_subscriptions, route, unsubscribe.
  rewrite Hcaller, Z.eqb_refl.
  rewrite (get_sub_missing (crud.unsubscribe db (channel_id s) (student_id s))
             (channel_id s) (student_id s)); [reflexivity|].
  intros row Hrow. now apply unsubscribe_rows in Hrow.
Qed.

Lemma unsubscribe_twice_not_found_witness :
  DELETE_subscriptions 1 1 alice_token
    (snd (DELETE_subscriptions 1 1 alice_token campus_subscribed))
  = (status.HTTP_404_NOT_FOUND,
     snd (DELETE_subscriptions 1 1 alice_token campus_subscribed)).
Proof.
  apply (unsubscribe_twice_not_found campus_subscribed (mkSubscription 1 1) alice_token).
  - simpl. left. reflexivity.
  - reflexivity.
Defined.

(** ** Subscribing *)

Lemma get_channel_present (db : Session) (ch : ChannelModel) :
  In ch (channels db) -> is_some (crud.get_channel db (channel_pk ch)) = true.
Proof.
  intros H. apply is_some_find_In with (x := ch); [exact H | apply Z.eqb_refl].
Qed.

Lemma filter_keeps_all {A : Type} (f : A -> bool) (l : list A) :
  (forall x, In x l -> f x = true) -> filter f l = l.
Proof.
  induction l as [|y l IH]; simpl; intros H; [reflexivity|].
  rewrite (H y (or_introl eq_refl)). f_equal. apply IH. intros x Hx. apply H. now right.
Qed.

(** The handler on a request that passes its four checks. *)
Lemma create_new_subscription_passes (db : Session) (subscription : SubscriptionCreate)
    (current_student : StudentJWT) (ch : ChannelModel) (s : StudentModel) :
  jwt_student_id current_student = sub_student_id subscription ->
  crud.get_sub_by_channel_and_student db (sub_channel_id subscription)
                                      (sub_student_id subscription) = None ->
  In ch (channels db) -> channel_pk ch = sub_channel_id subscription ->
  In s (students db) -> id s = sub_student_id subscription ->
  create_new_subscription subscription current_student db
    = (Return (PySubscription (mkSubscription (sub_channel_id subscription)
                                              (sub_student_id subscription))),
       mkSession (students db) (channels db)
                 (subscriptions db
                  ++ [mkSubscription (sub_channel_id subscription)
                                     (sub_student_id subscription)])).
Proof.
  intros Hcaller Hfresh Hch Hpk Hs Hid.
  pose proof (get_channel_present db ch Hch) as Hchannel. rewrite Hpk in Hchannel.
  pose proof (get_student_present db s Hs) as Hstudent. rewrite Hid in Hstudent.
  unfold create_new_subscription.
  rewrite Hcaller, Z.eqb_refl, Hfresh, Hchannel, Hstudent. reflexivity.
Qed.

(** X6: a create-subscription request by the matching caller, for a pair
    without a stored row and with the channel and the student stored, is
    answered with status 201 and adds one row, that of the requested pair. *)
Theorem subscribe_accepted :
  forall (db : Session) (subscription : SubscriptionCreate)
         (current_student : StudentJWT) (ch : ChannelModel) (s : StudentModel),
    jwt_student_id current_student = sub_student_id subscription ->
    (forall row, In row (subscriptions db) ->
       ~ (channel_id row = sub_channel_id subscription
          /\ student_id row = sub_student_id subscription)) ->
    In ch (channels db) -> channel_pk ch = sub_channel_id subscription ->
    In s (students db) -> id s = sub_student_id subscription ->
    POST_subscriptions subscription current_student db
      = (status.HTTP_201_CREATED,
         mkSession (students db) (channels db)
                   (subscriptions db
                    ++ [mkSubscription (sub_channel_id subscription)
                                       (sub_student_id subscription)])).
Proof.
  intros db subscription current_student ch s Hcaller Hfresh Hch Hpk Hs Hid.
  unfold POST_subscriptions, route.
  rewrite (create_new_subscription_passes db subscription current_student ch s);
    auto using get_sub_missing.
Qed.

Lemma subscribe_accepted_witness :
  POST_subscriptions (mkSubscriptionCreate 1 2) bob_token campus_subscribed
    = (status.HTTP_201_CREATED,
       mkSession [alice; bob] [news] [mkSubscription 1 1; mkSubscription 1 2]).
Proof.
  apply (subscribe_accepted campus_subscribed (mkSubscriptionCreate 1 2) bob_token news bob).
  - reflexivity.
  - simpl. intros row [<-|[]] [_ H]. simpl in H. lia.
  - simpl. left. reflexivity.
  - reflexivity.
  - simpl. right. left. reflexivity.
  - reflexivity.
Defined.

(** X7: subscribing twice: after an accepted create-subscription request the
    same request is answered with status 400 and changes nothing. *)
Theorem subscribe_twice_second_rejected :
  forall (db : Session) (subscription : SubscriptionCreate)
         (current_student : StudentJWT) (ch : ChannelModel) (s : StudentModel),
    jwt_student_id current_student = sub_student_id subscription ->
    (forall row, In row (subscriptions db) ->
       ~ (channel_id row = sub_channel_id subscription
          /\ student_id row = sub_student_id subscription)) ->
    In ch (channels db) -> channel_pk ch = sub_channel_id subscription ->
    In s (students db) -> id s = sub_student_id subscription ->
    let db' := snd (POST_subscriptions subscription current_student db) in
    fst (POST_subscriptions subscription current_student db) = status.HTTP_201_CREATED
    /\ POST_subscriptions subscription current_student db'
       = (status.HTTP_400_BAD_REQUEST, db').
Proof.
  intros db subscription current_student ch s Hcaller Hfresh Hch Hpk Hs Hid db'.
  unfold db', POST_subscriptions, route.
  rewrite (create_new_subscription_passes db subscription current_student ch s);
    auto using get_sub_missing.
  split; [reflexivity|]. simpl snd.
  set (row := mkSubscription (sub_channel_id subscription) (sub_student_id subscription)).
  set (db1 := mkSession (students db) (channels db) (subscriptions db ++ [row])).
  assert (Hfound : is_some (crud.get_sub_by_channel_and_student
                              db1 (channel_id row) (student_id row)) = true).
  { apply get_sub_present. simpl. apply in_or_app. right. now left. }
  simpl in Hfound. unfold create_new_subscription.
  rewrite Hcaller, Z.eqb_refl, Hfound. reflexivity.
Qed.

Lemma subscribe_twice_second_rejected_witness :
  fst (POST_subscriptions (mkSubscriptionCreate 1 2) bob_token campus)
    = status.HTTP_201_CREATED
  /\ POST_subscriptions (mkSubscriptionCreate 1 2) bob_token
       (snd (POST_subscriptions (mkSubscriptionCreate 1 2) bob_token campus))
     = (status.HTTP_400_BAD_REQUEST,
        snd (POST_subscriptions (mkSubscriptionCreate 1 2) bob_token campus)).
Proof.
  apply (subscribe_twice_second_rejected campus (mkSubscriptionCreate 1 2) bob_token
           news bob).
  - reflexivity.
  - simpl. intros row [].
  - simpl. left. reflexivity.
  - reflexivity.
  - simpl. right. left. reflexivity.
  - reflexivity.
Defined.

(** X8: subscribing and then unsubscribing the same pair, both by the matching
    caller, gives back the database the two requests started from. *)
Theorem subscribe_then_unsubscribe :
  forall (db : Session) (subscription : SubscriptionCreate)
         (current_student : StudentJWT) (ch : ChannelModel) (s : StudentModel),
    jwt_student_id current_student = sub_student_id subscription ->
    (forall row, In row (subscriptions db) ->
       ~ (channel_id row = sub_channel_id subscription
          /\ student_id row = sub_student_id subscription)) ->
    In ch (channels db) -> channel_pk ch = sub_channel_id subscription ->
    In s (students db) -> id s = sub_student_id subscription ->
    snd (unsubscribe (sub_channel_id subscription) (sub_student_id subscription)
                     current_student
                     (snd (create_new_subscription subscription current_student db)))
    = db.
Proof.
  intros db subscription current_student ch s Hcaller Hfresh Hch Hpk Hs Hid.
  rewrite (create_new_subscription_passes db subscription current_student ch s);
    auto using get_sub_missing.
  simpl snd.
  set (row := mkSubscription (sub_channel_id subscription) (sub_student_id subscription)).
  set (db1 := mkSession (students db) (channels db) (subscriptions db ++ [row])).
  assert (Hfound : is_some (crud.get_sub_by_channel_and_student
                              db1 (channel_id row) (student_id row)) = true).
  { apply get_sub_present. simpl. apply in_or_app. right. now left. }
  simpl in Hfound. unfold unsubscribe.
  rewrite Hcaller, Z.eqb_refl, Hfound. simpl.
  unfold crud.unsubscribe, db1. simpl.
  rewrite filter_app. simpl. unfold crud.same_pair at 2. simpl.
  rewrite !Z.eqb_refl. simpl. rewrite app_nil_r.
  rewrite filter_keeps_all.
  - now destruct db.
  - intros x Hx. apply negb_true_iff. unfold crud.same_pair.
    apply andb_false_iff. rewrite !Z.eqb_neq.
    specialize (Hfresh x Hx). lia.
Qed.

Lemma subscribe_then_unsubscribe_witness :
  snd (unsubscribe 1 2 bob_token
         (snd (create_new_subscription (mkSubscriptionCreate 1 2) bob_token
                 campus_subscribed)))
  = campus_subscribed.
Proof.
  apply (subscribe_then_unsubscribe campus_subscribed (mkSubscriptionCreate 1 2)
           bob_token news bob).
  - reflexivity.
  - simpl. intros row [<-|[]] [_ H]. simpl in H. lia.
  - simpl. left. reflexivity.
  - reflexivity.
  - simpl. right. left. reflexivity.
  - reflexivity.
Defined.

(** ** Listing subscriptions with filters *)

(** X9: with both filters given, zero ids included, the listing is answered
    with the lookup of the pair: a stored row of that pair, or [None] when no
    row of the pair is stored; it is not a list. *)
Theorem get_subscriptions_both_filters :
  forall (db : Session) (c st skip limit : Z),
    match fst (get_subscriptions (Some c) (Some st) skip limit db) with
    | Return (PySubscription row) =>
        In row (subscriptions db) /\ channel_id row = c /\ student_id row = st
    | Return PyNone =>
        forall row, In row (subscriptions db) ->
                    ~ (channel_id row = c /\ student_id row = st)
    | _ => False
    end.
Proof.
  intros db c st skip limit. unfold get_subscriptions. simpl.
  unfold crud.get_sub_by_channel_and_student.
  destruct (find (crud.same_pair c st) (subscriptions db)) as [row|] eqn:Hfind; simpl.
  - apply find_some in Hfind as [Hin Hpair]. unfold crud.same_pair in Hpair.
    apply andb_true_iff in Hpair as [Hc Hst].
    apply Z.eqb_eq in Hc, Hst. auto.
  - intros row Hin [Hc Hst].
    pose proof (find_none _ _ Hfind row Hin) as Hpair. unfold crud.same_pair in Hpair.
    apply andb_false_iff in Hpair. rewrite !Z.eqb_neq in Hpair. lia.
Qed.

(** X10: a listing that acts on a filter takes no account of skip and limit:
    the answer is the same under any two paginations. *)
Theorem filtered_listing_ignores_pagination :
  forall (db : Session) (channel_id student_id : option Z) (skip limit skip' limit' : Z),
    filtered channel_id student_id ->
    get_subscriptions channel_id student_id skip limit db
      = get_subscriptions channel_id student_id skip' limit' db.
Proof.
  intros db [c|] [st|] skip limit skip' limit' Hf; unfold get_subscriptions;
    try reflexivity; unfold filtered in Hf; simpl in *.
  - destruct (c =? 0); [|reflexivity]. exfalso. intuition congruence.
  - destruct (st =? 0); [|reflexivity]. exfalso. intuition congruence.
  - exfalso. intuition congruence.
Qed.

Lemma filtered_listing_ignores_pagination_witness :
  get_subscriptions (Some 1) None 0 100 campus_subscribed
    = get_subscriptions (Some 1) None 1 0 campus_subscribed.
Proof.
  apply (filtered_listing_ignores_pagination campus_subscribed (Some 1) None 0 100 1 0).
  right. left. simpl. discriminate.
Defined.

(** ** Errors *)

(** X11: whatever the request, a raised exception carries status 400, 403 or
    404, and the handler that raises it leaves the database as it was. *)
Theorem error_leaves_database :
  forall (r : Request) (db : Session) (e : HTTPException),
    fst (handle r db) = Raise e ->
    snd (handle r db) = db /\ error_status (status_code e).
Proof.
  unfold error_status.
  intros r db e.
  destruct r as [skip limit | sid | student | sid student tok | sid tok
                | c st skip limit | subscription tok | c st tok]; simpl.
  - discriminate.
  - unfold get_single_student. destruct (crud.get_student db sid); simpl;
      intros H; inversion H; subst; simpl; auto.
  - unfold create_student.
    repeat match goal with
           | |- context [if ?b then _ else _] => destruct b; simpl
           end; intros H; inversion H; subst; simpl; auto.
  - unfold update_student. destruct (crud.get_student db sid); simpl;
      repeat match goal with
             | |- context [if ?b then _ else _] => destruct b; simpl
             end; intros H; inversion H; subst; simpl; auto.
  - unfold delete_student. destruct (crud.get_student db sid); simpl;
      repeat match goal with
             | |- context [if ?b then _ else _] => destruct b; simpl
             end; intros H; inversion H; subst; simpl; auto.
  - unfold get_subscriptions. destruct c as [c|], st as [st|]; simpl;
      repeat match goal with
             | |- context [if ?b then _ else _] => destruct b; simpl
             end; discriminate.
  - unfold create_new_subscription.
    repeat match goal with
           | |- context [if ?b then _ else _] => destruct b; simpl
           end; intros H; inversion H; subst; simpl; auto.
  - unfold unsubscribe.
    repeat match goal with
           | |- context [if ?b then _ else _] => destruct b; simpl
           end; intros H; inversion H; subst; simpl; auto.
Qed.

Lemma error_leaves_database_witness :
  snd (handle (ReqDeleteStudent 1 bob_token) campus) = campus
  /\ error_status (status_code (mkHTTPException status.HTTP_403_FORBIDDEN
                                  "Permission denied")).
Proof.
  apply (error_leaves_database (ReqDeleteStudent 1 bob_token) campus). reflexivity.
Defined.

(** ** Creating students *)

Lemma get_student_by_email_missing (db : Session) (e : string) :
  (forall s, In s (students db) -> email s <> e) ->
  crud.get_student_by_email db e = None.
Proof.
  intros H. apply find_absent. intros s Hs. apply String.eqb_neq. now apply H.
Qed.

Lemma get_student_by_matricule_missing (db : Session) (m : string) :
  (forall s, In s (students db) -> matricule s <> m) ->
  crud.get_student_by_matricule db m = None.
Proof.
  intros H. apply find_absent. intros s Hs. apply String.eqb_neq. now apply H.
Qed.

(** The handler on a request whose email and matricule are both new. *)
Lemma create_student_passes (db : Session) (student : StudentCreate) :
  (forall s, In s (students db) ->
     email s <> create_email student /\ matricule s <> create_matricule student) ->
  create_student student db
    = (Return (PyStudent (fst (crud.create_student db student))),
       snd (crud.create_student db student)).
Proof.
  intros Hnew. unfold create_student.
  rewrite get_student_by_email_missing by (intros s Hs; now apply Hnew).
  rewrite get_student_by_matricule_missing by (intros s Hs; now apply Hnew).
  reflexivity.
Qed.

(** X12: a create-student request whose email and matricule are those of no
    stored student is answered with status 201; it adds one student, who
    carries the email, matricule and name of the request, and touches no
    other row. *)
Theorem create_student_accepted :
  forall (db : Session) (student : StudentCreate),
    (forall s, In s (students db) ->
       email s <> create_email student /\ matricule s <> create_matricule student) ->
    exists row,
      POST_students student db
        = (status.HTTP_201_CREATED,
           mkSession (students db ++ [row]) (channels db) (subscriptions db))
      /\ email row = create_email student
      /\ matricule row = create_matricule student
      /\ name row = create_name student.
Proof.
  intros db student Hnew.
  exists (fst (crud.create_student db student)).
  unfold POST_students, route. rewrite (create_student_passes db student Hnew).
  repeat split.
Qed.

Lemma create_student_accepted_witness :
  exists row,
    POST_students (mkStudentCreate "carol@uni.cm" "FE21A003" "Carol") campus
      = (status.HTTP_201_CREATED,
         mkSession (students campus ++ [row]) (channels campus) (subscriptions campus))
    /\ email row = "carol@uni.cm"
    /\ matricule row = "FE21A003"
    /\ name row = "Carol".
Proof.
  apply (create_student_accepted campus (mkStudentCreate "carol@uni.cm" "FE21A003" "Carol")).
  simpl. intros s [<-|[<-|[]]]; simpl; split; discriminate.
Defined.

(** X13: creating the same student twice: after an accepted create-student
    request the same request is answered with status 400 and changes
    nothing. *)
Theorem create_student_twice_second_rejected :
  forall (db : Session) (student : StudentCreate),
    (forall s, In s (students db) ->
       email s <> create_email student /\ matricule s <> create_matricule student) ->
    let db' := snd (POST_students student db) in
    fst (POST_students student db) = status.HTTP_201_CREATED
    /\ POST_students student db' = (status.HTTP_400_BAD_REQUEST, db').
Proof.
  intros db student Hnew db'. unfold db', POST_students, route.
  rewrite (create_student_passes db student Hnew). split; [reflexivity|].
  simpl snd. unfold create_student at 1.
  set (row := mkStudent (crud.next_id (students db)) (create_email student)
                        (create_matricule student) (create_name student)).
  assert (Hfound : is_some (crud.get_student_by_email
                              (mkSession (students db ++ [row]) (channels db)
                                         (subscriptions db))
                              (create_email student)) = true).
  { apply is_some_find_In with (x := row).
    - simpl. apply in_or_app. right. now left.
    - apply String.eqb_refl. }
  now rewrite Hfound.
Qed.

Lemma create_student_twice_second_rejected_witness :
  fst (POST_students (mkStudentCreate "carol@uni.cm" "FE21A003" "Carol") campus)
    = status.HTTP_201_CREATED
  /\ POST_students (mkStudentCreate "carol@uni.cm" "FE21A003" "Carol")
       (snd (POST_students (mkStudentCreate "carol@uni.cm" "FE21A003" "Carol") campus))
     = (status.HTTP_400_BAD_REQUEST,
        snd (POST_students (mkStudentCreate "carol@uni.cm" "FE21A003" "Carol") campus)).
Proof.
  apply (create_student_twice_second_rejected campus
           (mkStudentCreate "carol@uni.cm" "FE21A003" "Carol")).
  simpl. intros s [<-|[<-|[]]]; simpl; split; discriminate.
Defined.

(** ** Updating students *)

(** X14: an update by the owner of a stored record whose new email or new
    matricule is that of another stored student is answered with status 400
    and the database is left as it was. *)
Theorem update_student_duplicate_rejected :
  forall (db : Session) (student_id : Z) (student : StudentUpdate)
         (current_student : StudentJWT) (s other : StudentModel),
    In s (students db) -> id s = student_id ->
    jwt_id current_student = student_id ->
    In other (students db) -> id other <> student_id ->
    email other = update_email student \/ matricule other = update_matricule student ->
    PUT_student student_id student current_student db
      = (status.HTTP_400_BAD_REQUEST, db).
Proof.
  intros db student_id student current_student s other Hin Hid Hcaller Hother Hoid Hdup.
  pose proof (get_student_present db s Hin) as Hfound. rewrite Hid in Hfound.
  unfold PUT_student, route, update_student.
  destruct (crud.get_student db student_id) as [db_student|] eqn:Hget; [|discriminate].
  apply get_student_id in Hget. rewrite Hget, Hcaller, Z.eqb_refl. simpl.
  destruct (is_some (crud.other_student_with_same_email db student_id student)) eqn:He;
    [reflexivity|].
  destruct Hdup as [Hmail|Hmat].
  - assert (Hclash :
      is_some (crud.other_student_with_same_email db student_id student) = true).
    { apply is_some_find_In with (x := other); [exact Hother|].
      apply andb_true_iff. split.
      - now apply negb_true_iff, Z.eqb_neq.
      - now apply String.eqb_eq. }
    congruence.
  - assert (Hclash :
      is_some (crud.other_student_with_same_matricule db student_id student) = true).
    { apply is_some_find_In with (x := other); [exact Hother|].
      apply andb_true_iff. split.
      - now apply negb_true_iff, Z.eqb_neq.
      - now apply String.eqb_eq. }
    now rewrite Hclash.
Qed.

Lemma update_student_duplicate_rejected_witness :
  PUT_student 1 (mkStudentUpdate "alice@uni.cm" "FE21A002" "Alice") alice_token campus
    = (status.HTTP_400_BAD_REQUEST, campus).
Proof.
  apply (update_student_duplicate_rejected campus 1 _ alice_token alice bob).
  - simpl. left. reflexivity.
  - reflexivity.
  - reflexivity.
  - simpl. right. left. reflexivity.
  - simpl. lia.
  - right. reflexivity.
Defined.

Lemma other_student_with_same_email_missing (db : Session) (student_id : Z)
    (student : StudentUpdate) :
  (forall s, In s (students db) -> id s <> student_id ->
     email s <> update_email student) ->
  crud.other_student_with_same_email db student_id student = None.
Proof.
  intros H. apply find_absent. intros s Hs. apply andb_false_iff.
  destruct (Z.eqb_spec (id s) student_id) as [|Hid]; [now left|].
  right. apply String.eqb_neq. now apply H.
Qed.

Lemma other_student_with_same_matricule_missing (db : Session) (student_id : Z)
    (student : StudentUpdate) :
  (forall s, In s (students db) -> id s <> student_id ->
     matricule s <> update_matricule student) ->
  crud.other_student_with_same_matricule db student_id student = None.
Proof.
  intros H. apply find_absent. intros s Hs. apply andb_false_iff.
  destruct (Z.eqb_spec (id s) student_id) as [|Hid]; [now left|].
  right. apply String.eqb_neq. now apply H.
Qed.

Lemma apply_update_id (student : StudentUpdate) (student_id : Z) (s : StudentModel) :
  id (crud.apply_update student student_id s) = id s.
Proof. unfold crud.apply_update. now destruct (id s =? student_id). Qed.

Lemma apply_update_other (student : StudentUpdate) (student_id : Z) (s : StudentModel) :
  id s <> student_id -> crud.apply_update student student_id s = s.
Proof.
  intros H. unfold crud.apply_update. apply Z.eqb_neq in H. now rewrite H.
Qed.

Lemma map_apply_update_ids (student : StudentUpdate) (student_id : Z)
    (l : list StudentModel) :
  map id (map (crud.apply_update student student_id) l) = map id l.
Proof.
  rewrite map_map. apply map_ext. intros s. apply apply_update_id.
Qed.

(** The handler on an update by the owner that clashes with no other student. *)
Lemma update_student_passes (db : Session) (student_id : Z) (student : StudentUpdate)
    (current_student : StudentJWT) (s : StudentModel) :
  In s (students db) -> id s = student_id ->
  jwt_id current_student = student_id ->
  (forall other, In other (students db) -> id other <> student_id ->
     email other <> update_email student
     /\ matricule other <> update_matricule student) ->
  snd (update_student student_id student current_student db)
    = mkSession (map (crud.apply_update student student_id) (students db))
                (channels db) (subscriptions db)
  /\ exists v, fst (update_student student_id student current_student db) = Return v
               /\ forall r, v <> PyResponse r.
Proof.
  intros Hin Hid Hcaller Hfree.
  pose proof (get_student_present db s Hin) as Hfound. rewrite Hid in Hfound.
  unfold update_student.
  destruct (crud.get_student db student_id) as [db_student|] eqn:Hget; [|discriminate].
  apply get_student_id in Hget. rewrite Hget, Hcaller, Z.eqb_refl. simpl.
  rewrite other_student_with_same_email_missing
    by (intros o Ho Hne; now apply Hfree).
  rewrite other_student_with_same_matricule_missing
    by (intros o Ho Hne; now apply Hfree).
  simpl. split; [reflexivity|].
  eexists. split; [reflexivity|].
  intros r. now destruct (crud.get_student _ student_id).
Qed.

(** X15: an update by the owner of a stored record whose new email and new
    matricule are those of no other stored student is answered with status
    200.  Afterwards the rows with the target id carry the email, matricule
    and name of the request, every other row is a row stored before, the ids
    in the table are the same, and channels and subscriptions are untouched;
    in particular a student may send their own current email and
    matricule. *)
Theorem update_student_accepted :
  forall (db : Session) (student_id : Z) (student : StudentUpdate)
         (current_student : StudentJWT) (s : StudentModel),
    In s (students db) -> id s = student_id ->
    jwt_id current_student = student_id ->
    (forall other, In other (students db) -> id other <> student_id ->
       email other <> update_email student
       /\ matricule other <> update_matricule student) ->
    let db' := snd (PUT_student student_id student current_student db) in
    fst (PUT_student student_id student current_student db) = status.HTTP_200_OK
    /\ map id (students db') = map id (students db)
    /\ channels db' = channels db
    /\ subscriptions db' = subscriptions db
    /\ forall row, In row (students db') ->
         (id row = student_id ->
            email row = update_email student
            /\ matricule row = update_matricule student
            /\ name row = update_name student)
         /\ (id row <> student_id -> In row (students db)).
Proof.
  intros db student_id student current_student s Hin Hid Hcaller Hfree db'.
  destruct (update_student_passes db student_id student current_student s
              Hin Hid Hcaller Hfree) as [Hdb [v [Hv Hnot_response]]].
  assert (Hdb' : db' = mkSession (map (crud.apply_update student student_id) (students db))
                                 (channels db) (subscriptions db)).
  { unfold db', PUT_student, route.
    destruct (update_student student_id student current_student db). exact Hdb. }
  split.
  - unfold PUT_student, route.
    destruct (update_student student_id student current_student db) as [o d].
    simpl in Hv. subst o. simpl.
    destruct v; try reflexivity. now destruct (Hnot_response r).
  - rewrite Hdb'. simpl. split; [apply map_apply_update_ids|].
    split; [reflexivity|]. split; [reflexivity|].
    intros row Hrow. apply in_map_iff in Hrow as [old [Hrow Hold]]. subst row.
    rewrite apply_update_id. split.
    + intros Hold_id. unfold crud.apply_update.
      apply Z.eqb_eq in Hold_id. rewrite Hold_id. simpl. auto.
    + intros Hold_id. now rewrite apply_update_other.
Qed.

Lemma update_student_accepted_witness :
  fst (PUT_student 2 (mkStudentUpdate "bob@uni.cm" "FE21A002" "Robert") bob_token campus)
    = status.HTTP_200_OK
  /\ map id (students (snd (PUT_student 2 (mkStudentUpdate "bob@uni.cm" "FE21A002" "Robert")
                              bob_token campus)))
     = map id (students campus)
  /\ channels (snd (PUT_student 2 (mkStudentUpdate "bob@uni.cm" "FE21A002" "Robert")
                      bob_token campus))
     = channels campus
  /\ subscriptions (snd (PUT_student 2 (mkStudentUpdate "bob@uni.cm" "FE21A002" "Robert")
                           bob_token campus))
     = subscriptions campus
  /\ forall row,
       In row (students (snd (PUT_student 2
                                (mkStudentUpdate "bob@uni.cm" "FE21A002" "Robert")
                                bob_token campus))) ->
       (id row = 2 ->
          email row = "bob@uni.cm" /\ matricule row = "FE21A002" /\ name row = "Robert")
       /\ (id row <> 2 -> In row (students campus)).
Proof.
  apply (update_student_accepted campus 2
           (mkStudentUpdate "bob@uni.cm" "FE21A002" "Robert") bob_token bob).
  - simpl. right. left. reflexivity.
  - reflexivity.
  - reflexivity.
  - simpl. intros other [<-|[<-|[]]]; simpl; intros H; [split; discriminate | lia].
Defined.

(** ** Deleting students *)

(** X16: after the owner deletes their stored record, no stored student has
    that id and every other student is still stored, so reading the id and
    deleting it again are both answered with status 404. *)
Theorem delete_student_then_missing :
  forall (db : Session) (s : StudentModel) (current_student : StudentJWT),
    In s (students db) ->
    jwt_id current_student = id s ->
    let db' := snd (DELETE_student (id s) current_student db) in
    (forall row, In row (students db') <-> In row (students db) /\ id row <> id s)
    /\ GET_student (id s) db' = (status.HTTP_404_NOT_FOUND, db')
    /\ DELETE_student (id s) current_student db' = (status.HTTP_404_NOT_FOUND, db').
Proof.
  intros db s current_student Hin Hcaller db'.
  assert (Hdb' : db' = crud.delete_student db (id s)).
  { unfold db'. now rewrite (delete_student_success_status db s current_student Hin Hcaller). }
  assert (Hrows : forall row,
            In row (students db') <-> In row (students db) /\ id row <> id s).
  { intros row. rewrite Hdb'. simpl. rewrite filter_In, negb_true_iff, Z.eqb_neq.
    reflexivity. }
  assert (Hgone : crud.get_student db' (id s) = None).
  { apply get_student_missing. intros row Hrow. now apply Hrows in Hrow. }
  split; [exact Hrows|].
  unfold GET_student, DELETE_student, route, get_single_student, delete_student.
  rewrite Hgone. split; reflexivity.
Qed.

Lemma delete_student_then_missing_witness :
  (forall row,
     In row (students (snd (DELETE_student (id alice) alice_token campus)))
     <-> In row (students campus) /\ id row <> id alice)
  /\ GET_student (id alice) (snd (DELETE_student (id alice) alice_token campus))
     = (status.HTTP_404_NOT_FOUND, snd (DELETE_student (id alice) alice_token campus))
  /\ DELETE_student (id alice) alice_token
       (snd (DELETE_student (id alice) alice_token campus))
     = (status.HTTP_404_NOT_FOUND, snd (DELETE_student (id alice) alice_token campus)).
Proof.
  apply (delete_student_then_missing campus alice alice_token).
  - simpl. left. reflexivity.
  - reflexivity.
Defined.

(** ** Uniqueness in the student table *)

Section UniqueField.
Context {B : Type} (fld : StudentModel -> B).

Lemma NoDup_map_filter (p : StudentModel -> bool) (l : list StudentModel) :
  NoDup (map fld l) -> NoDup (map fld (filter p l)).
Proof.
  induction l as [|x l IH]; simpl; intros H; [constructor|].
  apply NoDup_cons_iff in H as [Hx Hl].
  destruct (p x); simpl; [|now apply IH].
  apply NoDup_cons_iff. split; [|now apply IH].
  intros Hin. apply Hx. apply in_map_iff in Hin as [y [Hy Hin]].
  apply filter_In in Hin as [Hin _]. apply in_map_iff. now exists y.
Qed.

Lemma NoDup_map_snoc (l : list StudentModel) (x : StudentModel) :
  NoDup (map fld l) -> (forall y, In y l -> fld y <> fld x) ->
  NoDup (map fld (l ++ [x])).
Proof.
  induction l as [|a l IH]; simpl; intros Hnd Hnew.
  - constructor; [tauto | constructor].
  - apply NoDup_cons_iff in Hnd as [Ha Hl]. apply NoDup_cons_iff. split.
    + rewrite map_app, in_app_iff. simpl. intros [Hin|[Heq|[]]]; [tauto|].
      apply (Hnew a); auto.
    + apply IH; auto.
Qed.

(** An update that sets the field of the target rows to [v] keeps the field
    unique when the ids are unique and no other row holds [v]. *)
Lemma NoDup_map_apply_update (student : StudentUpdate) (student_id : Z) (v : B)
    (l : list StudentModel) :
  (forall s, id s = student_id -> fld (crud.apply_update student student_id s) = v) ->
  NoDup (map id l) -> NoDup (map fld l) ->
  (forall s, In s l -> id s <> student_id -> fld s <> v) ->
  NoDup (map fld (map (crud.apply_update student student_id) l)).
Proof.
  intros Hset. induction l as [|x l IH]; simpl; intros Hids Hfld Hfree; [constructor|].
  apply NoDup_cons_iff in Hids as [Hx_id Hids].
  apply NoDup_cons_iff in Hfld as [Hx_fld Hfld].
  apply NoDup_cons_iff. split; [|apply IH; auto].
  rewrite map_map, in_map_iff. intros [y [Hy Hin]].
  destruct (Z.eq_dec (id x) student_id) as [Hx|Hx].
  - rewrite (Hset x Hx) in Hy.
    assert (Hy_id : id y <> student_id).
    { intros Heq. apply Hx_id. apply in_map_iff. exists y. split; [congruence | exact Hin]. }
    rewrite (apply_update_other student student_id y Hy_id) in Hy.
    apply (Hfree y); auto.
  - rewrite (apply_update_other student student_id x Hx) in Hy.
    destruct (Z.eq_dec (id y) student_id) as [Hy_id|Hy_id].
    + rewrite (Hset y Hy_id) in Hy. apply (Hfree x); auto.
    + rewrite (apply_update_other student student_id y Hy_id) in Hy.
      apply Hx_fld. apply in_map_iff. now exists y.
Qed.
End UniqueField.

Lemma next_id_above (l : list StudentModel) (s : StudentModel) :
  In s l -> id s < crud.next_id l.
Proof.
  unfold crud.next_id. induction l as [|x l IH]; cbn [fold_right In]; [tauto|].
  intros [->|Hin]; [lia|]. specialize (IH Hin). lia.
Qed.

Lemma create_student_keeps_unique (db : Session) (student : StudentCreate) :
  crud.get_student_by_email db (create_email student) = None ->
  crud.get_student_by_matricule db (create_matricule student) = None ->
  students_unique db -> students_unique (snd (crud.create_student db student)).
Proof.
  intros He Hm [Hids [Hemails Hmats]]. unfold students_unique. simpl.
  repeat split; apply NoDup_map_snoc; auto; intros y Hy; simpl.
  - pose proof (next_id_above (students db) y Hy). lia.
  - pose proof (find_none _ _ He y Hy) as H. now apply String.eqb_neq in H.
  - pose proof (find_none _ _ Hm y Hy) as H. now apply String.eqb_neq in H.
Qed.

Lemma update_student_keeps_unique (db : Session) (student : StudentUpdate)
    (student_id : Z) :
  crud.other_student_with_same_email db student_id student = None ->
  crud.other_student_with_same_matricule db student_id student = None ->
  students_unique db ->
  students_unique (snd (crud.update_student db student student_id)).
Proof.
  intros He Hm [Hids [Hemails Hmats]]. unfold students_unique. simpl.
  split; [now rewrite map_apply_update_ids|]. split.
  - apply NoDup_map_apply_update with (v := update_email student); auto.
    + intros s Hs. unfold crud.apply_update. apply Z.eqb_eq in Hs. now rewrite Hs.
    + intros s Hs Hid. pose proof (find_none _ _ He s Hs) as H. simpl in H.
      apply Z.eqb_neq in Hid. rewrite Hid in H. simpl in H. now apply String.eqb_neq.
  - apply NoDup_map_apply_update with (v := update_matricule student); auto.
    + intros s Hs. unfold crud.apply_update. apply Z.eqb_eq in Hs. now rewrite Hs.
    + intros s Hs Hid. pose proof (find_none _ _ Hm s Hs) as H. simpl in H.
      apply Z.eqb_neq in Hid. rewrite Hid in H. simpl in H. now apply String.eqb_neq.
Qed.

(** X17: every request keeps the student table free of repeated ids, emails
    and matricules: create and update write only after their lookups found
    the email and the matricule with no other student. *)
Theorem students_unique_preserved :
  forall (r : Request) (db : Session),
    students_unique db -> students_unique (snd (handle r db)).
Proof.
  intros r db Hinv.
  destruct r as [skip limit | sid | student | sid student tok | sid tok
                | c st skip limit | subscription tok | c st tok]; simpl.
  - exact Hinv.
  - unfold get_single_student. now destruct (crud.get_student db sid).
  - unfold create_student.
    destruct (crud.get_student_by_email db _) eqn:He; simpl; [exact Hinv|].
    destruct (crud.get_student_by_matricule db _) eqn:Hm; simpl; [exact Hinv|].
    now apply create_student_keeps_unique.
  - unfold update_student.
    destruct (crud.get_student db sid) as [db_student|]; [|exact Hinv].
    destruct (negb (id db_student =? jwt_id tok)); [exact Hinv|].
    destruct (crud.other_student_with_same_email db sid student) eqn:He; simpl;
      [exact Hinv|].
    destruct (crud.other_student_with_same_matricule db sid student) eqn:Hm; simpl;
      [exact Hinv|].
    now apply update_student_keeps_unique.
  - unfold delete_student.
    destruct (crud.get_student db sid) as [db_student|]; [|exact Hinv].
    destruct (negb (id db_student =? jwt_id tok)); [exact Hinv|].
    simpl. destruct Hinv as [Hids [Hemails Hmats]].
    unfold students_unique. simpl. repeat split; now apply NoDup_map_filter.
  - unfold get_subscriptions.
    destruct c as [c|], st as [st|]; simpl; try exact Hinv;
      repeat match goal with
             | |- context [if ?b then _ else _] => destruct b; simpl
             end; exact Hinv.
  - unfold create_new_subscription.
    repeat match goal with
           | |- context [if ?b then _ else _] => destruct b; simpl
           end; exact Hinv.
  - unfold unsubscribe.
    repeat match goal with
           | |- context [if ?b then _ else _] => destruct b; simpl
           end; exact Hinv.
Qed.

Lemma students_unique_preserved_witness :
  students_unique campus
  /\ students_unique
       (snd (handle (ReqCreateStudent (mkStudentCreate "carol@uni.cm" "FE21A003" "Carol"))
                    campus)).
Proof.
  assert (H : students_unique campus).
  { unfold students_unique. simpl.
    repeat split; repeat constructor; simpl; intuition (try discriminate; try lia). }
  split; [exact H|].
  apply (students_unique_preserved
           (ReqCreateStudent (mkStudentCreate "carol@uni.cm" "FE21A003" "Carol")) campus H).
Defined.

(** ** Listing subscriptions with one filter *)

(** X18: with a non-zero id as the only filter, the listing holds exactly the
    stored rows of that channel, respectively of that student. *)
Theorem get_subscriptions_single_filter :
  forall (db : Session) (n skip limit : Z),
    n <> 0 ->
    (exists l,
       get_subscriptions (Some n) None skip limit db = (Return (PySubscriptions l), db)
       /\ forall row, In row l <-> In row (subscriptions db) /\ channel_id row = n)
    /\ (exists l,
          get_subscriptions None (Some n) skip limit db = (Return (PySubscriptions l), db)
          /\ forall row, In row l <-> In row (subscriptions db) /\ student_id row = n).
Proof.
  intros db n skip limit Hn. split.
  - eexists. split; [apply get_subscriptions_channel_only; exact Hn|].
    intros row. now rewrite filter_In, Z.eqb_eq.
  - eexists. split; [apply get_subscriptions_student_only; exact Hn|].
    intros row. now rewrite filter_In, Z.eqb_eq.
Qed.

Lemma get_subscriptions_single_filter_witness :
  (exists l,
     get_subscriptions (Some 1) None 0 100 campus_subscribed
       = (Return (PySubscriptions l), campus_subscribed)
     /\ forall row, In row l <-> In row (subscriptions campus_subscribed)
                                 /\ channel_id row = 1)
  /\ (exists l,
        get_subscriptions None (Some 1) 0 100 campus_subscribed
          = (Return (PySubscriptions l), campus_subscribed)
        /\ forall row, In row l <-> In row (subscriptions campus_subscribed)
                                    /\ student_id row = 1).
Proof.
  apply (get_subscriptions_single_filter campus_subscribed 1 0 100). lia.
Defined.

(** ** Which reference is reported missing *)

(** X19: in create-subscription the channel is looked up before the student:
    for a matching caller and a pair without a stored row, a missing channel
    is reported as such whether or not the student is stored, and a missing
    student is reported only when the channel is stored. *)
Theorem subscribe_missing_reference_detail :
  forall (db : Session) (subscription : SubscriptionCreate)
         (current_student : StudentJWT),
    jwt_student_id current_student = sub_student_id subscription ->
    (forall row, In row (subscriptions db) ->
       ~ (channel_id row = sub_channel_id subscription
          /\ student_id row = sub_student_id subscription)) ->
    ((forall ch, In ch (channels db) -> channel_pk ch <> sub_channel_id subscription) ->
     fst (create_new_subscription subscription current_student db)
       = Raise (mkHTTPException status.HTTP_404_NOT_FOUND
                  "Channel with specified ID does not exist"))
    /\ (forall ch, In ch (channels db) -> channel_pk ch = sub_channel_id subscription ->
        (forall s, In s (students db) -> id s <> sub_student_id subscription) ->
        fst (create_new_subscription subscription current_student db)
          = Raise (mkHTTPException status.HTTP_404_NOT_FOUND
                     "Student with specified ID does not exist")).
Proof.
  intros db subscription current_student Hcaller Hfresh.
  unfold create_new_subscription.
  rewrite Hcaller, Z.eqb_refl, (get_sub_missing db _ _ Hfresh). simpl. split.
  - intros Hno_channel. unfold crud.get_channel.
    rewrite find_absent; [reflexivity|].
    intros ch Hch. apply Z.eqb_neq. now apply Hno_channel.
  - intros ch Hch Hpk Hno_student.
    pose proof (get_channel_present db ch Hch) as Hfound. rewrite Hpk in Hfound.
    rewrite Hfound, (get_student_missing db _ Hno_student). reflexivity.
Qed.

Lemma subscribe_missing_reference_detail_witness :
  fst (create_new_subscription (mkSubscriptionCreate 9 7) (mkStudentJWT 7 7) campus)
    = Raise (mkHTTPException status.HTTP_404_NOT_FOUND
               "Channel with specified ID does not exist")
  /\ fst (create_new_subscription (mkSubscriptionCreate 1 7) (mkStudentJWT 7 7) campus)
     = Raise (mkHTTPException status.HTTP_404_NOT_FOUND
                "Student with specified ID does not exist").
Proof.
  split.
  - apply (subscribe_missing_reference_detail campus (mkSubscriptionCreate 9 7)
             (mkStudentJWT 7 7)).
    + reflexivity.
    + simpl. intros row [].
    + simpl. intros ch [<-|[]]. simpl. lia.
  - apply (subscribe_missing_reference_detail campus (mkSubscriptionCreate 1 7)
             (mkStudentJWT 7 7)) with (ch := news).
    + reflexivity.
    + simpl. intros row [].
    + simpl. left. reflexivity.
    + reflexivity.
    + simpl. intros s [<-|[<-|[]]]; simpl; lia.
Defined.
